(** * Market-data API: the filter-and-serialise request handler of [app.py]

    The development embeds [fetch_data] and [fetch_data_api] of [app.py]
    together with the part of pandas and of the web framework that the two
    functions rely on, and proves the properties of the handler that the
    specification states.

    - A DataFrame is a list of column names, the dtype of each column and
      a list of labelled rows.
    - A [float64] is a binary64 number of [SpecFloat]; the comparison of a
      float column with the integer year converts the integer to binary64,
      as numpy does.
    - Python's exceptions and [print] are effects: the handler runs in a
      state-and-exception monad over a [world] holding the remote CSV
      document (as [pd.read_csv] sees it) and the standard output.
    - JSON documents are kept as trees, a Python [str] holding the text of
      a document as [PyJsonText]. *)

From Stdlib Require Import List String Ascii ZArith QArith Bool Lia DecimalString.
From Stdlib Require Import SpecFloat Sorted.
Import ListNotations.
Local Open Scope string_scope.
Local Open Scope Z_scope.

Set Warnings "-register-all".

(** ** Binary64 numbers *)

(** A [float64] other than NaN: a zero, an infinity or a finite number
    [(-1)^s * m * 2^e]. NaN is the missing cell, [CNull] below. *)
Inductive double : Type :=
| DZero (s : bool)
| DInf (s : bool)
| DFinite (s : bool) (m : positive) (e : Z).

Definition to_spec (x : double) : spec_float :=
  match x with
  | DZero s => S754_zero s
  | DInf s => S754_infinity s
  | DFinite s m e => S754_finite s m e
  end.

(** The finite numbers in their one binary64 representation. *)
Definition valid_double (x : double) : bool := valid_binary 53 1024 (to_spec x).

Definition is_finite (x : double) : bool :=
  match x with
  | DInf _ => false
  | _ => true
  end.

(** The binary64 number nearest to [m * 2^e], ties to even; [None] when
    it is out of range. *)
Definition nearest_double (m e : Z) : option double :=
  match binary_normalize 53 1024 m e false with
  | S754_zero s => Some (DZero s)
  | S754_finite s m' e' => Some (DFinite s m' e')
  | _ => None
  end.

(** [float(y)] of a Python int: correctly rounded, OverflowError ([None])
    when [y] is too large. *)
Definition float_of_int (y : Z) : option double := nearest_double y 0.

(** [==] of two binary64 numbers. *)
Definition double_eqb (x y : double) : bool := SFeqb (to_spec x) (to_spec y).

(** The rational a finite binary64 number is. *)
Definition pow2Q (e : Z) : Q :=
  if 0 <=? e then inject_Z (2 ^ e) else 1 # Z.to_pos (2 ^ (- e)).

Definition double_Q (x : double) : option Q :=
  match x with
  | DZero _ => Some 0%Q
  | DInf _ => None
  | DFinite s m e =>
      Some ((inject_Z (if s then Z.neg m else Z.pos m)) * pow2Q e)%Q
  end.

(** [x == y] of a Python float and a Python int: Python compares the two
    numbers exactly. *)
Definition double_eq_int (x : double) (y : Z) : bool :=
  match double_Q x with
  | Some q => Qeq_bool q (inject_Z y)
  | None => false
  end.

(** ** Cells, rows and frames *)

(** A cell of a DataFrame read by [pd.read_csv]: missing (NaN), an [int64]
    number, a [float64] number, a string or a boolean. *)
Inductive cell : Type :=
| CNull
| CInt (z : Z)
| CFloat (x : double)
| CStr (s : string)
| CBool (b : bool).

(** The dtype of a column. *)
Inductive dtype : Type :=
| DInt64
| DFloat64
| DBool
| DObject.

(** A row keeps its index label: boolean indexing keeps the labels of the
    rows it selects. *)
Record row : Type := mkRow { label : nat; cells : list cell }.

Record DataFrame : Type := mkDF {
  columns : list string;
  dtypes : list dtype;
  rows : list row
}.

(** [df.shape[0]] *)
Definition nrows (df : DataFrame) : nat := List.length (rows df).

(** [df.empty]: some axis has length 0. *)
Definition empty (df : DataFrame) : bool :=
  (Nat.eqb (List.length (columns df)) 0 || Nat.eqb (List.length (rows df)) 0)%bool.

(** The right operand of [==] in the three filters. *)
Inductive scalar : Type :=
| SInt (z : Z)
| SStr (s : string).

(** [==] of two Python objects, as an object column compares its elements:
    numbers by value (a bool is the int 0 or 1, a float and an int compare
    exactly), strings by content, a number never equals a string and NaN
    equals nothing. *)
Definition cell_eqb (c : cell) (v : scalar) : bool :=
  match c, v with
  | CInt z, SInt y => Z.eqb z y
  | CBool b, SInt y => Z.eqb (Z.b2z b) y
  | CFloat x, SInt y => double_eq_int x y
  | CStr s, SStr t => String.eqb s t
  | _, _ => false
  end.

(** Position of a column name in [df.columns]. *)
Fixpoint col_index (name : string) (cols : list string) : option nat :=
  match cols with
  | [] => None
  | c :: cols' =>
      if String.eqb c name then Some 0%nat
      else option_map S (col_index name cols')
  end.

(** The cell of a row at a position; a row shorter than the header has
    missing cells there, as [read_csv] pads them. *)
Definition cell_at (i : nat) (r : row) : cell := nth i (cells r) CNull.

(** The dtype of the column at a position. *)
Definition dtype_at (df : DataFrame) (i : nat) : dtype := nth i (dtypes df) DObject.

(** [df[mask]]: the rows whose mask entry is [True], labels and order kept. *)
Fixpoint select (mask : list bool) (rs : list row) : list row :=
  match mask, rs with
  | b :: mask', r :: rs' => if b then r :: select mask' rs' else select mask' rs'
  | _, _ => []
  end.

(** [df.fillna('')] *)
Definition fill_cell (c : cell) : cell :=
  match c with
  | CNull => CStr ""
  | _ => c
  end.

Definition fill_row (r : row) : row := mkRow (label r) (map fill_cell (cells r)).

Definition is_null (c : cell) : bool :=
  match c with
  | CNull => true
  | _ => false
  end.

(** A column that gets a [''] becomes an object column. *)
Definition fill_dtype (rs : list row) (i : nat) (d : dtype) : dtype :=
  if existsb (fun r => is_null (cell_at i r)) rs then DObject else d.

Definition fillna (df : DataFrame) : DataFrame :=
  mkDF (columns df)
       (map (fun id => fill_dtype (rows df) (fst id) (snd id))
            (combine (seq 0 (List.length (dtypes df))) (dtypes df)))
       (map fill_row (rows df)).

(** ** JSON documents and Python values *)

Inductive json : Type :=
| JNull
| JBool (b : bool)
| JInt (z : Z)
| JFloat10 (x : double)
| JStr (s : string)
| JArr (items : list json)
| JObj (members : list (string * json))
| JQuoted (doc : json).
(** [JFloat10 x] is the number [to_json] writes for the finite float [x]:
    [x] with at most 10 decimal places, its default [double_precision]; the
    digits come out of the encoder's own arithmetic and are not computed
    here. [JQuoted doc] is the JSON string whose characters are the text of
    [doc]: what a JSON encoder makes of a [str] that already holds JSON. *)

(** A cell in the output of [to_json]: NaN and the infinities are written
    as [null]. *)
Definition cell_json (c : cell) : json :=
  match c with
  | CNull => JNull
  | CInt z => JInt z
  | CFloat x => if is_finite x then JFloat10 x else JNull
  | CStr s => JStr s
  | CBool b => JBool b
  end.

(** One record of [to_json(orient='records')]: column name to cell, the
    index label dropped. *)
Definition record_of (cols : list string) (r : row) : json :=
  JObj (combine cols (map cell_json (cells r))).

(** The document written by [df.to_json(orient='records')]. *)
Definition to_json_records (df : DataFrame) : json :=
  JArr (map (record_of (columns df)) (rows df)).

(** The Python values the two functions handle. [PyJsonText doc] is the
    [str] returned by [to_json]: the text of [doc]. *)
Inductive pyval : Type :=
| PyNone
| PyInt (z : Z)
| PyStr (s : string)
| PyJsonText (doc : json)
| PyDict (items : list (string * pyval))
| PyTuple (items : list pyval).

Definition is_none (v : pyval) : bool :=
  match v with
  | PyNone => true
  | _ => false
  end.

(** ** Exceptions *)

Inductive exn : Type :=
| KeyError (key : string)
| ValueError (msg : string)
| OverflowError (msg : string)
| OtherError (descr : string).
(** [OtherError] stands for whatever else [read_csv] raises (URLError,
    HTTPError, ParserError, EmptyDataError ...), with its description. *)

(** [str(e)]: a KeyError prints the repr of its key. *)
Definition str_exn (e : exn) : string :=
  match e with
  | KeyError k => "'" ++ k ++ "'"
  | ValueError m => m
  | OverflowError m => m
  | OtherError d => d
  end.

(** ** The monad of the handler: standard output and exceptions *)

Inductive outcome (A : Type) : Type :=
| Ok (a : A)
| Raise (e : exn).
Arguments Ok {A} a.
Arguments Raise {A} e.

Record world : Type := mkWorld {
  remote : outcome DataFrame;   (* what [pd.read_csv(url)] does now *)
  stdout : list string          (* lines printed so far *)
}.

Definition M (A : Type) : Type := world -> outcome A * world.

Definition ret {A} (a : A) : M A := fun w => (Ok a, w).

Definition bind {A B} (m : M A) (k : A -> M B) : M B :=
  fun w =>
    match m w with
    | (Ok a, w') => k a w'
    | (Raise e, w') => (Raise e, w')
    end.

Definition raise {A} (e : exn) : M A := fun w => (Raise e, w).

(** [try: m  except Exception as e: h e] *)
Definition try_except {A} (m : M A) (h : exn -> M A) : M A :=
  fun w =>
    match m w with
    | (Ok a, w') => (Ok a, w')
    | (Raise e, w') => h e w'
    end.

Declare Scope py_scope.
Delimit Scope py_scope with py.
Notation "x <- m ;; k" := (bind m (fun x => k))
  (at level 61, m at next level, right associativity) : py_scope.
Notation "m ;; k" := (bind m (fun _ => k))
  (at level 61, right associativity) : py_scope.
Local Open Scope py_scope.

(** [print(s)] *)
Definition print (s : string) : M unit :=
  fun w => (Ok tt, mkWorld (remote w) (stdout w ++ [s])).

(** [print(n)] for a row count. *)
Definition print_nat (n : nat) : M unit :=
  print (NilZero.string_of_uint (Nat.to_uint n)).

(** [pd.read_csv(url)]: the frame, or the exception of the fetch or parse. *)
Definition read_csv : M DataFrame := fun w => (remote w, w).

(** ** The comparison of a column with a scalar *)

Definition too_large : string := "int too large to convert to float".

(** How a column of a dtype compares its elements with a scalar.
    - A float64 column converts an int to float64 first, which raises
      OverflowError when the int does not fit, and compares floats.
    - An int64 or bool column compares with an int exactly.
    - A column that is not of dtype object has no element equal to a str.
    - An object column compares element by element, as Python does. *)
Definition element_test (d : dtype) (v : scalar) : outcome (cell -> bool) :=
  match d, v with
  | DFloat64, SInt y =>
      match float_of_int y with
      | None => Raise (OverflowError too_large)
      | Some fy =>
          Ok (fun c => match c with
                       | CFloat x => double_eqb x fy
                       | _ => false
                       end)
      end
  | DObject, _ => Ok (fun c => cell_eqb c v)
  | _, SInt _ => Ok (fun c => cell_eqb c v)
  | _, SStr _ => Ok (fun _ => false)
  end.

(** [df[df[name] == v]]: [df[name]] raises KeyError when the column is
    absent, [==] may raise as above; otherwise the boolean mask of the
    column selects the rows. *)
Definition filter_eq (df : DataFrame) (name : string) (v : scalar) : M DataFrame :=
  match col_index name (columns df) with
  | None => raise (KeyError name)
  | Some i =>
      match element_test (dtype_at df i) v with
      | Raise e => raise e
      | Ok test =>
          let mask := map (fun r => test (cell_at i r)) (rows df) in
          ret (mkDF (columns df) (dtypes df) (select mask (rows df)))
      end
  end.

(** ** [fetch_data] *)

Definition no_data : string := "No data found for the specified filters.".

(** Lines 15-23: the three optional filters, year, country, market. *)
Definition apply_filters (df : DataFrame)
    (year : option Z) (country market : option string) : M DataFrame :=
  df <- match year with
        | Some y => print "Filtering by year" ;; filter_eq df "year" (SInt y)
        | None => ret df
        end ;;
  df <- match country with
        | Some c => print "Filtering by country" ;; filter_eq df "country" (SStr c)
        | None => ret df
        end ;;
  match market with
  | Some m => print "Filtering by market" ;; filter_eq df "mkt_name" (SStr m)
  | None => ret df
  end.

(** Lines 13-32: the body of the [try]. *)
Definition fetch_data_body (year : option Z) (country market : option string)
    : M pyval :=
  df <- read_csv ;;
  print_nat (nrows df) ;;
  df <- apply_filters df year country market ;;
  let df_filter := fillna df in
  print_nat (nrows df_filter) ;;
  if empty df_filter then raise (ValueError no_data)
  else
    let filtered_json := PyJsonText (to_json_records df_filter) in
    ret filtered_json.

Definition error_dict (e : exn) : pyval := PyDict [("error", PyStr (str_exn e))].

Definition fetch_data (year : option Z) (country market : option string)
    : M pyval :=
  try_except (fetch_data_body year country market)
             (fun e => ret (error_dict e)).

(** ** [fetch_data_api] *)

(** Lines 42-47: the body of the endpoint's [try]. *)
Definition fetch_data_api_body (year : option Z) (country market : option string)
    : M pyval :=
  filtered_data <- fetch_data year country market ;;
  if is_none filtered_data then raise (ValueError no_data)
  else ret filtered_data.

Definition fetch_data_api (year : option Z) (country market : option string)
    : M pyval :=
  try_except (fetch_data_api_body year country market)
             (fun e => ret (PyTuple [error_dict e; PyInt 400])).

(** ** The HTTP response of the route *)

(** The framework's default JSON response of a returned value: a dict is an
    object, a tuple an array, and a [str] a JSON string, also when the [str]
    already holds JSON text. *)
Fixpoint jsonable (v : pyval) : json :=
  match v with
  | PyNone => JNull
  | PyInt z => JInt z
  | PyStr s => JStr s
  | PyJsonText doc => JQuoted doc
  | PyDict items => JObj (map (fun kv => (fst kv, jsonable (snd kv))) items)
  | PyTuple items => JArr (map jsonable items)
  end.

Inductive response : Type :=
| Response (status : Z) (body : json)
| ServerFault (e : exn).
(** [ServerFault]: an exception left the endpoint function unhandled. *)

Definition respond (o : outcome pyval) : response :=
  match o with
  | Ok v => Response 200 (jsonable v)
  | Raise e => ServerFault e
  end.

(** [GET /fetch_data?year=..&country=..&market=..] *)
Definition get_fetch_data (year : option Z) (country market : option string)
    (w : world) : response * world :=
  let (o, w') := fetch_data_api year country market w in
  (respond o, w').

(** ** Sample data *)

Definition sample_columns : list string := ["year"; "country"; "mkt_name"].

Definition sample_df : DataFrame :=
  mkDF sample_columns [DInt64; DObject; DObject]
       [ mkRow 0 [CInt 2020; CStr "USA"; CStr "Retail"];
         mkRow 1 [CInt 2021; CStr "USA"; CStr "Retail"] ].

Definition sample_world : world := mkWorld (Ok sample_df) [].

(** ** What the specification says, in its own words *)

(** A cell a column of a dtype can hold: an int64 column holds int64
    numbers and nothing missing, a float64 column binary64 numbers and NaN,
    a bool column booleans, an object column strings, booleans and NaN. *)
Definition conforms (d : dtype) (c : cell) : bool :=
  match d, c with
  | DInt64, CInt z => ((- 2 ^ 63 <=? z) && (z <? 2 ^ 63))%bool
  | DFloat64, CNull => true
  | DFloat64, CFloat x => valid_double x
  | DBool, CBool _ => true
  | DObject, CStr _ => true
  | DObject, CBool _ => true
  | DObject, CNull => true
  | _, _ => false
  end.

Fixpoint row_conforms (ds : list dtype) (cs : list cell) : bool :=
  match ds, cs with
  | [], [] => true
  | d :: ds', c :: cs' => (conforms d c && row_conforms ds' cs')%bool
  | _, _ => false
  end.

(** What [read_csv] guarantees of the frame it returns: a header with at
    least one name, no name twice, a dtype per column, every row as wide as
    the header with cells of the dtypes, and the labels 0, 1, 2, ... of a
    RangeIndex. *)
Record well_formed (df : DataFrame) : Prop := mkWF {
  wf_header : columns df <> [];
  wf_unique : NoDup (columns df);
  wf_dtypes : List.length (dtypes df) = List.length (columns df);
  wf_cells : Forall (fun r => row_conforms (dtypes df) (cells r) = true) (rows df);
  wf_index : map label (rows df) = seq 0 (nrows df)
}.

(** Numeric equality of a cell with an integer: the number in the cell is
    the integer. *)
Definition numerically_equal (c : cell) (y : Z) : Prop :=
  match c with
  | CInt z => z = y
  | CBool b => Z.b2z b = y
  | CFloat x => exists q, double_Q x = Some q /\ q == inject_Z y
  | _ => False
  end.

(** Equality of a cell with an integer in the type of the column: in a
    float64 column the cell is the float64 nearest to the integer;
    elsewhere the cell is numerically the integer. *)
Definition native_equal (d : dtype) (c : cell) (y : Z) : Prop :=
  match d with
  | DFloat64 =>
      exists x fy, c = CFloat x /\ float_of_int y = Some fy /\ double_eqb x fy = true
  | _ => numerically_equal c y
  end.

(** String equality of a cell with a string. *)
Definition str_equal (c : cell) (s : string) : Prop := c = CStr s.

(** "The named column's value equals the parameter value", when the
    parameter is provided. *)
Definition criterion (cols : list string) (name : string) (R : cell -> Prop)
    (r : row) : Prop :=
  exists i, col_index name cols = Some i /\ R (cell_at i r).

Definition year_criterion (df : DataFrame) (y : Z) (r : row) : Prop :=
  exists i, col_index "year" (columns df) = Some i /\
            native_equal (dtype_at df i) (cell_at i r) y.

Definition satisfies (df : DataFrame)
    (year : option Z) (country market : option string) (r : row) : Prop :=
  (forall y, year = Some y -> year_criterion df y r) /\
  (forall c, country = Some c ->
     criterion (columns df) "country" (fun x => str_equal x c) r) /\
  (forall m, market = Some m ->
     criterion (columns df) "mkt_name" (fun x => str_equal x m) r).

(** The same as a test on one row: the conjunction of the provided
    criteria; a comparison that raises selects nothing. *)
Definition holdsb (df : DataFrame) (name : string) (v : option scalar)
    (r : row) : bool :=
  match v with
  | None => true
  | Some v =>
      match col_index name (columns df) with
      | Some i =>
          match element_test (dtype_at df i) v with
          | Ok test => test (cell_at i r)
          | Raise _ => false
          end
      | None => false
      end
  end.

Definition satisfiesb (df : DataFrame)
    (year : option Z) (country market : option string) (r : row) : bool :=
  (holdsb df "year" (option_map SInt year) r &&
   holdsb df "country" (option_map SStr country) r &&
   holdsb df "mkt_name" (option_map SStr market) r)%bool.

(** The Filtered Result of the specification: the rows of the dataset that
    satisfy every provided criterion, in the order of the dataset. *)
Definition matching_rows (df : DataFrame)
    (year : option Z) (country market : option string) : list row :=
  filter (satisfiesb df year country market) (rows df).

(** The record of a surviving row: nulls replaced, then serialised. *)
Definition filled_record (cols : list string) (r : row) : json :=
  record_of cols (fill_row r).

(** The records a value returned by [fetch_data] carries: the items of the
    array when the value is the text of an array, none otherwise. *)
Definition returned_records (o : outcome pyval) : list json :=
  match o with
  | Ok (PyJsonText (JArr items)) => items
  | _ => []
  end.

(** One filter as a function of the frame: nothing to do without the
    parameter, KeyError without the column, the error of the comparison,
    or the selected rows. *)
Definition filter_step (name : string) (v : option scalar) (df : DataFrame)
    : outcome DataFrame :=
  match v with
  | None => Ok df
  | Some v =>
      match col_index name (columns df) with
      | None => Raise (KeyError name)
      | Some i =>
          match element_test (dtype_at df i) v with
          | Raise e => Raise e
          | Ok test =>
              Ok (mkDF (columns df) (dtypes df)
                       (filter (fun r => test (cell_at i r)) (rows df)))
          end
      end
  end.

Definition and_then {A B} (o : outcome A) (k : A -> outcome B) : outcome B :=
  match o with
  | Ok a => k a
  | Raise e => Raise e
  end.

(** The filters in their order: year, then country on what the year filter
    left, then market on what the country filter left; the first filter
    that raises ends the chain. *)
Definition filter_chain (df : DataFrame)
    (year : option Z) (country market : option string) : outcome DataFrame :=
  and_then (filter_step "year" (option_map SInt year) df) (fun df1 =>
  and_then (filter_step "country" (option_map SStr country) df1) (fun df2 =>
  filter_step "mkt_name" (option_map SStr market) df2)).

(** The exception of one filter on a frame, if it raises. *)
Definition step_error (df : DataFrame) (name : string) (v : option scalar)
    : option exn :=
  match v with
  | None => None
  | Some v =>
      match col_index name (columns df) with
      | None => Some (KeyError name)
      | Some i =>
          match element_test (dtype_at df i) v with
          | Raise e => Some e
          | Ok _ => None
          end
      end
  end.

(** The exception of the first filter that raises, in the order year,
    country, market. *)
Definition chain_error (df : DataFrame)
    (year : option Z) (country market : option string) : option exn :=
  match step_error df "year" (option_map SInt year) with
  | Some e => Some e
  | None =>
      match step_error df "country" (option_map SStr country) with
      | Some e => Some e
      | None => step_error df "mkt_name" (option_map SStr market)
      end
  end.

(** The year filter runs: without the parameter, or with the column there
    and, when it is a float64 column, a year that fits a float64. *)
Definition year_filter_runs (df : DataFrame) (year : option Z) : Prop :=
  forall y, year = Some y ->
    exists i, col_index "year" (columns df) = Some i /\
              (dtype_at df i = DFloat64 -> float_of_int y <> None).

(** [l1] is [l2] with some elements left out, the order kept. *)
Inductive subseq {A : Type} : list A -> list A -> Prop :=
| subseq_nil : subseq [] []
| subseq_skip x l1 l2 : subseq l1 l2 -> subseq l1 (x :: l2)
| subseq_keep x l1 l2 : subseq l1 l2 -> subseq (x :: l1) (x :: l2).

(** Every operation of the handler leaves the remote document alone. *)
Definition keeps_remote {A} (m : M A) : Prop :=
  forall w, remote (snd (m w)) = remote w.

(** The body of the [try] of [fetch_data], as a function of what
    [read_csv] returns. *)
Definition body_result (r : outcome DataFrame)
    (y : option Z) (c m : option string) : outcome pyval :=
  match r with
  | Raise e => Raise e
  | Ok df =>
      match chain_error df y c m with
      | Some e => Raise e
      | None =>
          let df_filter :=
            fillna (mkDF (columns df) (dtypes df) (matching_rows df y c m)) in
          if empty df_filter then Raise (ValueError no_data)
          else Ok (PyJsonText (to_json_records df_filter))
      end
  end.

(** The value [fetch_data] returns, for an outcome of the body of its [try]. *)
Definition caught (o : outcome pyval) : pyval :=
  match o with
  | Ok v => v
  | Raise e => error_dict e
  end.

(** A JSON value that is not a container. *)
Definition is_scalar_json (j : json) : Prop :=
  match j with
  | JNull | JBool _ | JInt _ | JFloat10 _ | JStr _ => True
  | _ => False
  end.

(** The values of the record of a row, in the order of the columns. *)
Definition filled_values (r : row) : list json :=
  map cell_json (map fill_cell (cells r)).

(** The float64 nearest to [m * 2^e]. *)
Definition dbl (m e : Z) : double :=
  match nearest_double m e with
  | Some x => x
  | None => DZero false
  end.

(** A dataset with missing cells. *)
Definition gaps_df : DataFrame :=
  mkDF ["year"; "country"; "price"] [DInt64; DObject; DFloat64]
       [ mkRow 0 [CInt 2020; CStr "USA"; CNull];
         mkRow 1 [CInt 2021; CStr "USA"; CFloat (dbl 5 (-1))];
         mkRow 2 [CInt 2020; CNull; CFloat (dbl 7 (-2))] ].

(** A dataset whose year column is a float64 column, as [read_csv] makes
    it when a year is missing. *)
Definition float_year_df : DataFrame :=
  mkDF ["year"; "country"] [DFloat64; DObject]
       [ mkRow 0 [CFloat (dbl (2 ^ 53) 0); CStr "USA"];
         mkRow 1 [CNull; CStr "USA"] ].

Definition float_year_df' : DataFrame :=
  mkDF ["year"; "country"] [DFloat64; DObject]
       [ mkRow 0 [CNull; CStr "France"];
         mkRow 1 [CFloat (dbl (2 ^ 54) 0); CStr "France"] ].

(** ** The diagnostic output *)

(** The text [print] writes for a row count. *)
Definition dec (n : nat) : string := NilZero.string_of_uint (Nat.to_uint n).

(** The lines of lines 16, 19 and 22, one per provided parameter. *)
Definition filter_lines (year : option Z) (country market : option string)
    : list string :=
  (match year with Some _ => ["Filtering by year"] | None => [] end) ++
  (match country with Some _ => ["Filtering by country"] | None => [] end) ++
  (match market with Some _ => ["Filtering by market"] | None => [] end).

(** An operation only appends to the standard output. *)
Definition appends_stdout {A} (m : M A) : Prop :=
  forall w, exists lines : list string, stdout (snd (m w)) = (stdout w ++ lines)%list.

(** The error body of a message. *)
Definition error_body (msg : string) : json := JObj [("error", JStr msg)].

(** A cell that holds a number; a Python bool is an int. *)
Definition is_number (c : cell) : bool :=
  match c with
  | CInt _ | CFloat _ | CBool _ => true
  | _ => false
  end.

(** A frame whose year column holds text. *)
Definition text_year_df : DataFrame :=
  mkDF ["year"; "country"] [DObject; DObject]
       [ mkRow 0 [CStr "2020"; CStr "USA"];
         mkRow 1 [CNull; CStr "USA"] ].

(** The test a column makes of one cell; a comparison that raises passes
    no cell. *)
Definition passes (d : dtype) (v : scalar) (c : cell) : bool :=
  match element_test d v with
  | Ok test => test c
  | Raise _ => false
  end.

(** One filter of lines 15-23: its line, when the parameter is provided,
    then the filter. *)
Definition stage (line name : string) (v : option scalar) (df : DataFrame)
    : M DataFrame :=
  match v with
  | Some v => print line ;; filter_eq df name v
  | None => ret df
  end.

Arguments filter_step : simpl never.

(** ** Lists: masks, filters and subsequences *)

Section ListFacts.

Variable p q : row -> bool.

Lemma select_mask (rs : list row) : select (map p rs) rs = filter p rs.
Proof.
  induction rs as [|r rs IH]; simpl; [reflexivity|].
  rewrite IH. reflexivity.
Qed.

Lemma filter_filter (rs : list row) :
  filter q (filter p rs) = filter (fun r => (p r && q r)%bool) rs.
Proof.
  induction rs as [|r rs IH]; simpl; [reflexivity|].
  destruct (p r); simpl; [destruct (q r)|]; rewrite IH; reflexivity.
Qed.

Lemma filter_subseq (rs : list row) : subseq (filter p rs) rs.
Proof.
  induction rs as [|r rs IH]; simpl; [constructor|].
  destruct (p r); constructor; exact IH.
Qed.

End ListFacts.

Lemma subseq_In {A} (l1 l2 : list A) x : subseq l1 l2 -> In x l1 -> In x l2.
Proof.
  induction 1; simpl; intuition.
Qed.

Lemma subseq_map {A B} (f : A -> B) (l1 l2 : list A) :
  subseq l1 l2 -> subseq (map f l1) (map f l2).
Proof.
  induction 1; simpl; constructor; assumption.
Qed.

Lemma filter_ext_row (p q : row -> bool) (rs : list row) :
  (forall r, p r = q r) -> filter p rs = filter q rs.
Proof.
  intros E. induction rs as [|r rs IH]; simpl; [reflexivity|].
  rewrite E, IH. reflexivity.
Qed.

Lemma filter_const_true (rs : list row) : filter (fun _ => true) rs = rs.
Proof.
  induction rs as [|r rs IH]; simpl; [reflexivity|]. rewrite IH. reflexivity.
Qed.

(** ** Running the handler *)

Lemma filter_eq_run (df : DataFrame) (name : string) (v : scalar) (w : world) :
  filter_eq df name v w = (filter_step name (Some v) df, w).
Proof.
  unfold filter_eq, filter_step.
  destruct (col_index name (columns df)) as [i|]; [|reflexivity].
  destruct (element_test (dtype_at df i) v) as [test|e]; [|reflexivity].
  unfold ret. rewrite select_mask. reflexivity.
Qed.

Lemma keeps_remote_ret {A} (a : A) : keeps_remote (ret a).
Proof. intros w. reflexivity. Qed.

Lemma keeps_remote_raise {A} (e : exn) : keeps_remote (@raise A e).
Proof. intros w. reflexivity. Qed.

Lemma keeps_remote_print (s : string) : keeps_remote (print s).
Proof. intros w. reflexivity. Qed.

Lemma keeps_remote_read_csv : keeps_remote read_csv.
Proof. intros w. reflexivity. Qed.

Lemma keeps_remote_bind {A B} (m : M A) (k : A -> M B) :
  keeps_remote m -> (forall a, keeps_remote (k a)) -> keeps_remote (bind m k).
Proof.
  intros Hm Hk w. unfold bind. specialize (Hm w).
  destruct (m w) as [[a|e] w']; simpl in *.
  - rewrite Hk. exact Hm.
  - exact Hm.
Qed.

Lemma keeps_remote_try {A} (m : M A) (h : exn -> M A) :
  keeps_remote m -> (forall e, keeps_remote (h e)) -> keeps_remote (try_except m h).
Proof.
  intros Hm Hh w. unfold try_except. specialize (Hm w).
  destruct (m w) as [[a|e] w']; simpl in *.
  - exact Hm.
  - rewrite Hh. exact Hm.
Qed.

Lemma keeps_remote_filter_eq df name v : keeps_remote (filter_eq df name v).
Proof. intros w. rewrite filter_eq_run. reflexivity. Qed.

Create HintDb remote discriminated.
#[local] Hint Resolve keeps_remote_ret keeps_remote_raise keeps_remote_print
  keeps_remote_read_csv keeps_remote_filter_eq : remote.

Ltac keep :=
  repeat first
    [ progress auto with remote
    | apply keeps_remote_bind; [|intro]
    | apply keeps_remote_try; [|intro]
    | match goal with |- keeps_remote (match ?x with _ => _ end) => destruct x end
    | match goal with |- keeps_remote (if ?x then _ else _) => destruct x end ].

Lemma keeps_remote_apply_filters df y c m : keeps_remote (apply_filters df y c m).
Proof. unfold apply_filters. keep. Qed.

Lemma keeps_remote_fetch_data y c m : keeps_remote (fetch_data y c m).
Proof.
  unfold fetch_data, fetch_data_body, print_nat. keep.
Qed.

Lemma keeps_remote_fetch_data_api y c m : keeps_remote (fetch_data_api y c m).
Proof.
  unfold fetch_data_api, fetch_data_api_body. keep.
Qed.

(** The filters of [fetch_data] are the chain: year, country, market, each
    on the frame the one before left. *)
Lemma apply_filters_fst df y c m w :
  fst (apply_filters df y c m w) = filter_chain df y c m.
Proof.
  unfold apply_filters, filter_chain, and_then, bind, print, ret.
  destruct y as [y|]; simpl.
  - rewrite filter_eq_run. simpl.
    destruct (filter_step "year" (Some (SInt y)) df) as [df1|e]; [|reflexivity].
    destruct c as [c|]; simpl.
    + rewrite filter_eq_run. simpl.
      destruct (filter_step "country" (Some (SStr c)) df1) as [df2|e]; [|reflexivity].
      destruct m as [m|]; simpl; [rewrite filter_eq_run|]; reflexivity.
    + destruct m as [m|]; simpl; [rewrite filter_eq_run|]; reflexivity.
  - destruct c as [c|]; simpl.
    + rewrite filter_eq_run. simpl.
      destruct (filter_step "country" (Some (SStr c)) df) as [df2|e]; [|reflexivity].
      destruct m as [m|]; simpl; [rewrite filter_eq_run|]; reflexivity.
    + destruct m as [m|]; simpl; [rewrite filter_eq_run|]; reflexivity.
Qed.

(** One filter: its error, or the rows that pass its test. *)
Lemma filter_step_eq name v df :
  filter_step name v df =
  match step_error df name v with
  | Some e => Raise e
  | None => Ok (mkDF (columns df) (dtypes df) (filter (holdsb df name v) (rows df)))
  end.
Proof.
  unfold filter_step, step_error, holdsb.
  destruct v as [v|].
  - destruct (col_index name (columns df)) as [i|]; [|reflexivity].
    destruct (element_test (dtype_at df i) v) as [test|e]; reflexivity.
  - rewrite filter_const_true. destruct df; reflexivity.
Qed.

(** The tests and errors of a filter depend on the header and the dtypes
    only, which the filters keep. *)
Lemma step_error_frame df df' name v :
  columns df' = columns df -> dtypes df' = dtypes df ->
  step_error df' name v = step_error df name v.
Proof.
  intros Ec Ed. unfold step_error, dtype_at. rewrite Ec, Ed. reflexivity.
Qed.

Lemma holdsb_frame df df' name v r :
  columns df' = columns df -> dtypes df' = dtypes df ->
  holdsb df' name v r = holdsb df name v r.
Proof.
  intros Ec Ed. unfold holdsb, dtype_at. rewrite Ec, Ed. reflexivity.
Qed.

(** The chain: the error of the first filter that raises, or the rows that
    satisfy all the provided criteria. *)
Lemma filter_chain_eq df y c m :
  filter_chain df y c m =
  match chain_error df y c m with
  | Some e => Raise e
  | None => Ok (mkDF (columns df) (dtypes df) (matching_rows df y c m))
  end.
Proof.
  unfold filter_chain, chain_error, matching_rows, satisfiesb, and_then.
  rewrite (filter_step_eq "year").
  destruct (step_error df "year" (option_map SInt y)) as [e|]; [reflexivity|].
  set (df1 := mkDF (columns df) (dtypes df)
                   (filter (holdsb df "year" (option_map SInt y)) (rows df))).
  rewrite (filter_step_eq "country").
  rewrite (step_error_frame df df1) by reflexivity.
  destruct (step_error df "country" (option_map SStr c)) as [e|]; [reflexivity|].
  set (df2 := mkDF (columns df1) (dtypes df1)
                   (filter (holdsb df1 "country" (option_map SStr c)) (rows df1))).
  rewrite (filter_step_eq "mkt_name").
  rewrite (step_error_frame df df2) by reflexivity.
  destruct (step_error df "mkt_name" (option_map SStr m)) as [e|]; [reflexivity|].
  subst df2 df1. cbn [columns dtypes rows]. rewrite !filter_filter.
  do 2 f_equal. apply filter_ext_row. intros r.
  rewrite (holdsb_frame df _ "country") by reflexivity.
  rewrite (holdsb_frame df _ "mkt_name") by reflexivity.
  rewrite andb_assoc. reflexivity.
Qed.

Lemma fetch_data_body_fst y c m w :
  fst (fetch_data_body y c m w) = body_result (remote w) y c m.
Proof.
  unfold fetch_data_body, body_result, bind, read_csv, print_nat, print.
  destruct (remote w) as [df|e] eqn:R; simpl; [|reflexivity].
  match goal with |- context [apply_filters df y c m ?w0] =>
    pose proof (apply_filters_fst df y c m w0) as F;
    destruct (apply_filters df y c m w0) as [[df'|e'] w']
  end; simpl in F; rewrite filter_chain_eq in F.
  - destruct (chain_error df y c m); [discriminate|].
    injection F as ->. simpl.
    match goal with |- context [if ?b then _ else _] => destruct b end;
      reflexivity.
  - destruct (chain_error df y c m); [|discriminate].
    injection F as ->. reflexivity.
Qed.

Lemma fetch_data_fst y c m w :
  fst (fetch_data y c m w) = Ok (caught (fst (fetch_data_body y c m w))).
Proof.
  unfold fetch_data, try_except.
  destruct (fetch_data_body y c m w) as [[v|e] w']; reflexivity.
Qed.

Lemma body_result_not_none r y c m : is_none (caught (body_result r y c m)) = false.
Proof.
  unfold body_result. destruct r as [df|e]; [|reflexivity].
  destruct (chain_error df y c m); [reflexivity|]. simpl.
  match goal with |- context [if ?b then _ else _] => destruct b end; reflexivity.
Qed.

Lemma fetch_data_api_body_eq y c m w :
  fetch_data_api_body y c m w = fetch_data y c m w.
Proof.
  unfold fetch_data_api_body, bind.
  pose proof (fetch_data_fst y c m w) as F.
  rewrite fetch_data_body_fst in F.
  destruct (fetch_data y c m w) as [[v|e] w']; simpl in F; [|discriminate].
  injection F as ->. rewrite body_result_not_none. reflexivity.
Qed.

Lemma fetch_data_api_eq y c m w : fetch_data_api y c m w = fetch_data y c m w.
Proof.
  unfold fetch_data_api, try_except. rewrite fetch_data_api_body_eq.
  pose proof (fetch_data_fst y c m w) as F.
  destruct (fetch_data y c m w) as [[v|e] w']; simpl in F; [reflexivity|discriminate].
Qed.

Lemma get_fetch_data_fst y c m w :
  fst (get_fetch_data y c m w) =
  Response 200 (jsonable (caught (body_result (remote w) y c m))).
Proof.
  unfold get_fetch_data. rewrite fetch_data_api_eq.
  pose proof (fetch_data_fst y c m w) as F.
  rewrite fetch_data_body_fst in F.
  destruct (fetch_data y c m w) as [o w']; simpl in *. subst o. reflexivity.
Qed.

Lemma get_fetch_data_snd y c m w :
  snd (get_fetch_data y c m w) = snd (fetch_data y c m w).
Proof.
  unfold get_fetch_data. rewrite fetch_data_api_eq.
  destruct (fetch_data y c m w); reflexivity.
Qed.

(** ** The criteria: the test and its meaning *)

Lemma cell_eqb_int (c : cell) (y : Z) :
  cell_eqb c (SInt y) = true <-> numerically_equal c y.
Proof.
  destruct c as [|z|x|s|b]; simpl; try (split; [discriminate|contradiction]).
  - apply Z.eqb_eq.
  - unfold double_eq_int. destruct (double_Q x) as [q|].
    + rewrite Qeq_bool_iff. split.
      * intros H. exists q. split; [reflexivity|exact H].
      * intros [q' [[= <-] H]]. exact H.
    + split; [discriminate|]. intros [q' [[=] _]].
  - apply Z.eqb_eq.
Qed.

Lemma passes_int (d : dtype) (y : Z) (c : cell) :
  passes d (SInt y) c = true <-> native_equal d c y.
Proof.
  unfold passes, native_equal, element_test.
  destruct d; try apply cell_eqb_int.
  destruct (float_of_int y) as [fy|].
  - destruct c as [|z|x|s|b];
      try (split; [discriminate|intros (x' & fy' & [=] & _)]).
    split.
    + intros H. exists x, fy. repeat split. exact H.
    + intros (x' & fy' & [= <-] & [= <-] & H). exact H.
  - split; [discriminate|]. intros (x' & fy' & _ & [=] & _).
Qed.

Lemma passes_str (d : dtype) (s : string) (c : cell) :
  passes d (SStr s) c = true <-> d = DObject /\ c = CStr s.
Proof.
  unfold passes, element_test.
  destruct d; try (split; [discriminate|intros [[=] _]]).
  destruct c as [|z|x|t|b]; simpl; try (split; [discriminate|intros [_ [=]]]).
  rewrite String.eqb_eq. split.
  - intros ->. split; reflexivity.
  - intros [_ [= ->]]. reflexivity.
Qed.

Lemma passes_null (d : dtype) (v : scalar) : passes d v CNull = false.
Proof.
  unfold passes, element_test.
  destruct d, v; try reflexivity.
  destruct (float_of_int z); reflexivity.
Qed.

Lemma holdsb_passes df name v r :
  holdsb df name (Some v) r =
  match col_index name (columns df) with
  | Some i => passes (dtype_at df i) v (cell_at i r)
  | None => false
  end.
Proof. reflexivity. Qed.

(** A string sits in an object column. *)
Lemma row_conforms_str (ds : list dtype) (cs : list cell) (i : nat) (s : string) :
  row_conforms ds cs = true -> nth i cs CNull = CStr s -> nth i ds DObject = DObject.
Proof.
  revert cs i. induction ds as [|d ds IH]; intros [|c cs] i H E; simpl in *;
    try discriminate.
  - destruct i; discriminate.
  - apply andb_true_iff in H. destruct H as [Hc Hr].
    destruct i as [|i].
    + subst c. destruct d; simpl in Hc; try discriminate. reflexivity.
    + apply (IH cs i Hr E).
Qed.

Lemma row_conforms_length (ds : list dtype) (cs : list cell) :
  row_conforms ds cs = true -> List.length cs = List.length ds.
Proof.
  revert cs. induction ds as [|d ds IH]; intros [|c cs] H; simpl in *;
    try discriminate; try reflexivity.
  apply andb_true_iff in H. destruct H as [_ Hr]. f_equal. apply IH, Hr.
Qed.

Lemma holdsb_year_spec df y r :
  holdsb df "year" (Some (SInt y)) r = true <-> year_criterion df y r.
Proof.
  rewrite holdsb_passes. unfold year_criterion.
  destruct (col_index "year" (columns df)) as [i|].
  - rewrite passes_int. split.
    + intros H. exists i. split; [reflexivity|exact H].
    + intros [j [[= <-] H]]. exact H.
  - split; [discriminate|]. intros [j [[=] _]].
Qed.

Lemma holdsb_str_spec df name s r :
  row_conforms (dtypes df) (cells r) = true ->
  holdsb df name (Some (SStr s)) r = true <->
  criterion (columns df) name (fun x => str_equal x s) r.
Proof.
  intros Hr. rewrite holdsb_passes. unfold criterion, str_equal.
  destruct (col_index name (columns df)) as [i|].
  - rewrite passes_str. split.
    + intros [_ H]. exists i. split; [reflexivity|exact H].
    + intros [j [[= <-] H]]. split; [|exact H].
      apply (row_conforms_str _ _ _ _ Hr H).
  - split; [discriminate|]. intros [j [[=] _]].
Qed.

Lemma satisfiesb_spec df y c m r :
  row_conforms (dtypes df) (cells r) = true ->
  satisfiesb df y c m r = true <-> satisfies df y c m r.
Proof.
  intros Hr. unfold satisfiesb, satisfies. rewrite !andb_true_iff.
  assert (Hy : holdsb df "year" (option_map SInt y) r = true <->
               forall y0, y = Some y0 -> year_criterion df y0 r).
  { destruct y as [y0|]; cbn [option_map].
    - rewrite holdsb_year_spec.
      split; [intros H ? [= <-]; exact H|intros H; apply H; reflexivity].
    - split; [intros _ ? [=]|reflexivity]. }
  assert (Hs : forall name v,
             holdsb df name (option_map SStr v) r = true <->
             forall s, v = Some s ->
               criterion (columns df) name (fun x => str_equal x s) r).
  { intros name [s|]; cbn [option_map].
    - rewrite (holdsb_str_spec df name s r Hr).
      split; [intros H ? [= <-]; exact H|intros H; apply H; reflexivity].
    - split; [intros _ ? [=]|reflexivity]. }
  rewrite Hy, (Hs "country" c), (Hs "mkt_name" m). tauto.
Qed.

Lemma matching_rows_In df y c m r :
  well_formed df ->
  In r (matching_rows df y c m) <->
  In r (rows df) /\ satisfies df y c m r.
Proof.
  intros WF. unfold matching_rows. rewrite filter_In.
  pose proof (wf_cells df WF) as W. rewrite Forall_forall in W.
  split; intros [Hin H]; (split; [exact Hin|]);
    apply (satisfiesb_spec df y c m r (W r Hin)); exact H.
Qed.

Lemma matching_rows_subseq df y c m : subseq (matching_rows df y c m) (rows df).
Proof. apply filter_subseq. Qed.

Lemma step_error_no_match df name v e r :
  step_error df name v = Some e -> holdsb df name v r = false.
Proof.
  unfold step_error, holdsb. destruct v as [v|]; [|discriminate].
  destruct (col_index name (columns df)) as [i|]; [|reflexivity].
  destruct (element_test (dtype_at df i) v); [discriminate|reflexivity].
Qed.

Lemma chain_error_no_match df y c m e r :
  chain_error df y c m = Some e -> satisfiesb df y c m r = false.
Proof.
  unfold chain_error, satisfiesb. intros H.
  destruct (step_error df "year" (option_map SInt y)) as [e1|] eqn:E1.
  - rewrite (step_error_no_match _ _ _ _ r E1). reflexivity.
  - destruct (step_error df "country" (option_map SStr c)) as [e2|] eqn:E2.
    + rewrite (step_error_no_match _ _ _ _ r E2), andb_false_r. reflexivity.
    + rewrite (step_error_no_match _ _ _ _ r H), andb_false_r. reflexivity.
Qed.

Lemma chain_error_no_rows df y c m e :
  chain_error df y c m = Some e -> matching_rows df y c m = [].
Proof.
  intros H. unfold matching_rows.
  induction (rows df) as [|r rs IH]; simpl; [reflexivity|].
  rewrite (chain_error_no_match _ _ _ _ _ r H). exact IH.
Qed.

Lemma matching_rows_no_criteria df : matching_rows df None None None = rows df.
Proof. unfold matching_rows. apply filter_const_true. Qed.

(** What the body of the [try] does on a frame with a header: the records
    of the matching rows, or an exception when there is none. *)
Lemma body_result_records df y c m :
  columns df <> [] ->
  body_result (Ok df) y c m =
  match matching_rows df y c m with
  | [] => Raise (match chain_error df y c m with
                 | Some e => e
                 | None => ValueError no_data
                 end)
  | r :: rs => Ok (PyJsonText (JArr (map (filled_record (columns df)) (r :: rs))))
  end.
Proof.
  intros Hc. unfold body_result.
  destruct (chain_error df y c m) as [e|] eqn:Mi.
  - rewrite (chain_error_no_rows df y c m e Mi). reflexivity.
  - unfold empty, fillna, to_json_records. cbn [columns rows].
    destruct (columns df) as [|c0 cols]; [contradiction|].
    destruct (matching_rows df y c m) as [|r rs]; [reflexivity|].
    cbn [List.length Nat.eqb orb map]. rewrite map_map. reflexivity.
Qed.

(** The records [fetch_data] returns on a dataset with a header. *)
Lemma fetch_data_records w df y c m :
  remote w = Ok df -> columns df <> [] ->
  returned_records (fst (fetch_data y c m w)) =
  map (filled_record (columns df)) (matching_rows df y c m).
Proof.
  intros R Hc.
  rewrite fetch_data_fst, fetch_data_body_fst, R, (body_result_records _ _ _ _ Hc).
  destruct (matching_rows df y c m); reflexivity.
Qed.

(** ** The sample frames are frames [read_csv] can return *)

Ltac frame_ok :=
  constructor;
  [ discriminate
  | repeat constructor; simpl; intuition discriminate
  | reflexivity
  | repeat constructor
  | reflexivity ].

Lemma sample_df_well_formed : well_formed sample_df.
Proof. frame_ok. Defined.

Lemma gaps_df_well_formed : well_formed gaps_df.
Proof. frame_ok. Defined.

Lemma float_year_df_well_formed : well_formed float_year_df.
Proof. frame_ok. Defined.

Lemma float_year_df'_well_formed : well_formed float_year_df'.
Proof. frame_ok. Defined.

(** ** Properties of the handler *)

(** C1, as the specification states it, fails on a float64 year column:
    the year [2^53 + 1] is converted to the float64 [2^53] before the
    comparison, so the request returns the record of a row although no row
    of the dataset has a year cell numerically equal to the parameter. *)
Lemma fetch_data_returns_matching_rows_counterexample :
  well_formed float_year_df /\
  returned_records
    (fst (fetch_data (Some (2 ^ 53 + 1)) None None (mkWorld (Ok float_year_df) []))) =
    [JObj [("year", JFloat10 (dbl (2 ^ 53) 0)); ("country", JStr "USA")]] /\
  forall r, In r (rows float_year_df) ->
    ~ criterion (columns float_year_df) "year"
        (fun c => numerically_equal c (2 ^ 53 + 1)) r.
Proof.
  split; [exact float_year_df_well_formed|]. split; [reflexivity|].
  intros r Hin [i [Ei H]]. injection Ei as <-.
  apply cell_eqb_int in H.
  destruct Hin as [<-|[<-|[]]]; vm_compute in H; discriminate.
Qed.

(** C1, with the year compared in the type of its column. For every
    dataset and every combination of parameters, the records [fetch_data] returns are the records of exactly the dataset
    rows whose [year] cell equals the year parameter in the type of the
    column (numerically in an integer, boolean or object column; in a
    float64 column the cell is the float64 nearest to the parameter), whose
    [country] cell string-equals the country parameter and whose
    [mkt_name] cell string-equals the market parameter, each when provided;
    the filters run as the chain year, country, market, each on the rows
    the one before left, and leave these rows in the order of the
    dataset. *)
Theorem fetch_data_returns_matching_rows
    (w : world) (df : DataFrame) (y : option Z) (c m : option string) :
  remote w = Ok df ->
  well_formed df ->
  let rs := matching_rows df y c m in
  (forall r, In r rs <-> In r (rows df) /\ satisfies df y c m r) /\
  subseq rs (rows df) /\
  fst (apply_filters df y c m w) = filter_chain df y c m /\
  (forall df', filter_chain df y c m = Ok df' ->
     df' = mkDF (columns df) (dtypes df) rs) /\
  returned_records (fst (fetch_data y c m w)) = map (filled_record (columns df)) rs /\
  (rs <> [] ->
     fst (fetch_data y c m w) =
     Ok (PyJsonText (JArr (map (filled_record (columns df)) rs)))).
Proof.
  intros R WF rs. pose proof (wf_header df WF) as Hc.
  split; [|split; [|split; [|split; [|split]]]].
  - intros r. apply matching_rows_In, WF.
  - apply matching_rows_subseq.
  - apply apply_filters_fst.
  - intros df' F. rewrite filter_chain_eq in F.
    destruct (chain_error df y c m); [discriminate|].
    injection F as <-. reflexivity.
  - apply fetch_data_records; assumption.
  - intros Hne.
    rewrite fetch_data_fst, fetch_data_body_fst, R, (body_result_records _ _ _ _ Hc).
    fold rs. destruct rs; [contradiction|reflexivity].
Qed.

Lemma fetch_data_returns_matching_rows_witness :
  returned_records (fst (fetch_data (Some 2020) (Some "USA") None sample_world)) =
  [JObj [("year", JInt 2020); ("country", JStr "USA"); ("mkt_name", JStr "Retail")]].
Proof.
  pose proof (fetch_data_returns_matching_rows sample_world sample_df
                (Some 2020) (Some "USA") None eq_refl sample_df_well_formed) as H.
  simpl in H.
  destruct H as (_ & _ & _ & _ & H & _).
  exact H.
Defined.

(** C2. Every failure inside the load-filter-serialise pipeline, whatever
    raised it, comes back from the request handler as the JSON body
    [{"error": <message>}] whose message is exactly the description of the
    error, and never leaves the handler as an unhandled fault. *)
Theorem pipeline_failures_become_error_bodies
    (w : world) (y : option Z) (c m : option string) (e : exn) :
  fst (fetch_data_body y c m w) = Raise e ->
  fst (fetch_data_api y c m w) = Ok (PyDict [("error", PyStr (str_exn e))]) /\
  fst (get_fetch_data y c m w) = Response 200 (JObj [("error", JStr (str_exn e))]) /\
  (forall e', fst (get_fetch_data y c m w) <> ServerFault e').
Proof.
  intros H. rewrite fetch_data_body_fst in H.
  rewrite fetch_data_api_eq, fetch_data_fst, fetch_data_body_fst,
    get_fetch_data_fst, H.
  repeat split. discriminate.
Qed.

Lemma pipeline_failures_become_error_bodies_witness :
  fst (get_fetch_data None None None
         (mkWorld (Raise (OtherError "HTTP Error 404: Not Found")) [])) =
  Response 200 (JObj [("error", JStr "HTTP Error 404: Not Found")]).
Proof.
  apply (pipeline_failures_become_error_bodies
           (mkWorld (Raise (OtherError "HTTP Error 404: Not Found")) [])
           None None None (OtherError "HTTP Error 404: Not Found")).
  reflexivity.
Defined.

(** The failures the pipeline has: the load fails, a filter raises, no row
    is left. *)
Lemma load_failure_raises w y c m e :
  remote w = Raise e -> fst (fetch_data_body y c m w) = Raise e.
Proof. intros R. rewrite fetch_data_body_fst, R. reflexivity. Qed.

Lemma filter_failure_raises w df y c m e :
  remote w = Ok df -> chain_error df y c m = Some e ->
  fst (fetch_data_body y c m w) = Raise e.
Proof.
  intros R Mi. rewrite fetch_data_body_fst, R. unfold body_result.
  rewrite Mi. reflexivity.
Qed.

Lemma no_rows_raises w df y c m :
  remote w = Ok df -> chain_error df y c m = None ->
  matching_rows df y c m = [] ->
  fst (fetch_data_body y c m w) = Raise (ValueError no_data).
Proof.
  intros R Mi E. rewrite fetch_data_body_fst, R. unfold body_result.
  rewrite Mi, E. unfold empty. cbn [fillna rows map List.length Nat.eqb].
  rewrite orb_true_r. reflexivity.
Qed.

(** C3. Whenever the filters leave zero rows, the response is the error
    body for "No data found for the specified filters." and not an empty
    JSON array. *)
Theorem zero_rows_gives_no_data_error
    (w : world) (df df' : DataFrame) (y : option Z) (c m : option string) :
  remote w = Ok df ->
  fst (apply_filters df y c m w) = Ok df' ->
  rows df' = [] ->
  fst (get_fetch_data y c m w) =
    Response 200 (JObj [("error", JStr "No data found for the specified filters.")]) /\
  fst (get_fetch_data y c m w) <> Response 200 (JArr []) /\
  fst (fetch_data y c m w) <> Ok (PyJsonText (JArr [])).
Proof.
  intros R F E. rewrite apply_filters_fst, filter_chain_eq in F.
  destruct (chain_error df y c m) eqn:Mi; [discriminate|].
  injection F as <-. cbn [rows] in E.
  pose proof (no_rows_raises w df y c m R Mi E) as B.
  rewrite get_fetch_data_fst, fetch_data_fst, B.
  rewrite fetch_data_body_fst in B. rewrite B.
  repeat split; discriminate.
Qed.

Lemma zero_rows_gives_no_data_error_witness :
  fst (get_fetch_data (Some 2099) None None sample_world) =
  Response 200 (JObj [("error", JStr "No data found for the specified filters.")]).
Proof.
  apply (zero_rows_gives_no_data_error sample_world sample_df
           (mkDF sample_columns [DInt64; DObject; DObject] [])
           (Some 2099) None None);
    reflexivity.
Defined.

(** ** The shape of the returned records *)

Lemma filled_record_eq cols r :
  filled_record cols r = JObj (combine cols (filled_values r)).
Proof. reflexivity. Qed.

Lemma filled_values_length r : List.length (filled_values r) = List.length (cells r).
Proof. unfold filled_values. rewrite !length_map. reflexivity. Qed.

Lemma cell_json_scalar c : is_scalar_json (cell_json c).
Proof. destruct c as [|z|x|s|b]; simpl; try exact I. destruct (is_finite x); exact I. Qed.

Lemma filled_values_scalar r : Forall is_scalar_json (filled_values r).
Proof.
  unfold filled_values. rewrite map_map. apply Forall_map, Forall_forall.
  intros c _. apply cell_json_scalar.
Qed.

Lemma filled_values_nth r j :
  (j < List.length (cells r))%nat ->
  nth j (filled_values r) JNull = cell_json (fill_cell (cell_at j r)).
Proof.
  intros Hj. unfold filled_values, cell_at. rewrite map_map.
  rewrite (nth_indep _ JNull (cell_json (fill_cell CNull))).
  - apply (map_nth (fun c => cell_json (fill_cell c))).
  - rewrite length_map. exact Hj.
Qed.

Lemma map_fst_combine {A B} (l : list A) (l' : list B) :
  List.length l = List.length l' -> map fst (combine l l') = l.
Proof.
  revert l'. induction l as [|a l IH]; intros [|b l'] H; simpl in *;
    try reflexivity; try discriminate.
  f_equal. apply IH. lia.
Qed.

Lemma Forall2_map_In {A B} (P : A -> B -> Prop) (f : A -> B) (l : list A) :
  (forall a, In a l -> P a (f a)) -> Forall2 P l (map f l).
Proof.
  induction l as [|a l IH]; intros H; simpl; constructor.
  - apply H. left. reflexivity.
  - apply IH. intros a' Ha. apply H. right. exact Ha.
Qed.

(** A row of a well-formed frame is as wide as the header. *)
Lemma well_formed_width df r :
  well_formed df -> In r (rows df) ->
  List.length (cells r) = List.length (columns df).
Proof.
  intros WF Hin. pose proof (wf_cells df WF) as W. rewrite Forall_forall in W.
  rewrite (row_conforms_length _ _ (W r Hin)). apply (wf_dtypes df WF).
Qed.

(** When [fetch_data] returns JSON text, the text is that of the records
    of the matching rows. *)
Lemma fetch_data_json_text w df y c m doc :
  remote w = Ok df -> columns df <> [] ->
  fst (fetch_data y c m w) = Ok (PyJsonText doc) ->
  doc = JArr (map (filled_record (columns df)) (matching_rows df y c m)) /\
  matching_rows df y c m <> [].
Proof.
  intros R Hc. rewrite fetch_data_fst, fetch_data_body_fst, R.
  rewrite (body_result_records _ _ _ _ Hc).
  destruct (matching_rows df y c m) as [|r rs]; simpl.
  - unfold error_dict. discriminate.
  - intros [= <-]. split; [reflexivity|discriminate].
Qed.

(** On a well-formed dataset the text [fetch_data] returns is that of an
    array of flat objects, one per surviving row, keyed by the column names
    and holding strings, numbers, booleans and [null]. *)
Lemma fetch_data_payload_shape w df y c m doc :
  remote w = Ok df -> well_formed df ->
  fst (fetch_data y c m w) = Ok (PyJsonText doc) ->
  exists recs,
    doc = JArr recs /\
    Forall2 (fun r rec =>
               exists vals,
                 rec = JObj (combine (columns df) vals) /\
                 map fst (combine (columns df) vals) = columns df /\
                 Forall is_scalar_json vals)
            (matching_rows df y c m) recs.
Proof.
  intros R WF H.
  destruct (fetch_data_json_text w df y c m doc R (wf_header df WF) H) as [-> _].
  eexists. split; [reflexivity|].
  apply Forall2_map_In. intros r Hr.
  exists (filled_values r). split; [reflexivity|]. split.
  - apply map_fst_combine. rewrite filled_values_length.
    symmetry. apply (well_formed_width df r WF).
    apply (subseq_In _ _ _ (matching_rows_subseq df y c m) Hr).
  - apply filled_values_scalar.
Qed.

(** The body of the response is never a JSON array: the handler returns
    either the text of a document, which the route sends as a JSON string,
    or the error dictionary. *)
Lemma response_body_never_array w y c m items :
  fst (get_fetch_data y c m w) <> Response 200 (JArr items).
Proof.
  rewrite get_fetch_data_fst. unfold body_result.
  destruct (remote w) as [df|e]; [|discriminate].
  destruct (chain_error df y c m); [discriminate|]. simpl.
  match goal with |- context [if ?b then _ else _] => destruct b end; discriminate.
Qed.

(** C4. On the success path the specification expects the body of the HTTP
    response to be a JSON array of flat objects. For the sample dataset and
    [year=2020] the route answers with a JSON string that holds the text of
    that array, not with the array. *)
Theorem success_body_is_quoted_text :
  fst (get_fetch_data (Some 2020) None None sample_world) =
    Response 200
      (JQuoted (JArr [JObj [("year", JInt 2020); ("country", JStr "USA");
                            ("mkt_name", JStr "Retail")]])) /\
  forall items,
    fst (get_fetch_data (Some 2020) None None sample_world) <>
    Response 200 (JArr items).
Proof.
  split; [reflexivity|]. intros items. apply response_body_never_array.
Qed.

(** C5. For every dataset with at least one row, a request without any
    filter parameter returns the records of the entire dataset, every null
    cell replaced by the empty string: one record per row, in the order of
    the dataset, each value as [to_json] writes the cell. *)
Theorem no_filters_returns_whole_dataset (w : world) (df : DataFrame) :
  remote w = Ok df ->
  columns df <> [] ->
  rows df <> [] ->
  fst (fetch_data None None None w) =
  Ok (PyJsonText
        (JArr (map (fun r => JObj (combine (columns df)
                                      (map cell_json (map fill_cell (cells r)))))
                   (rows df)))).
Proof.
  intros R Hc Hr.
  rewrite fetch_data_fst, fetch_data_body_fst, R, (body_result_records _ _ _ _ Hc).
  rewrite matching_rows_no_criteria.
  destruct (rows df); [contradiction|reflexivity].
Qed.

Lemma no_filters_returns_whole_dataset_witness :
  well_formed gaps_df /\
  fst (fetch_data None None None (mkWorld (Ok gaps_df) [])) =
  Ok (PyJsonText
        (JArr [JObj [("year", JInt 2020); ("country", JStr "USA"); ("price", JStr "")];
               JObj [("year", JInt 2021); ("country", JStr "USA");
                     ("price", JFloat10 (dbl 5 (-1)))];
               JObj [("year", JInt 2020); ("country", JStr "");
                     ("price", JFloat10 (dbl 7 (-2)))]])).
Proof.
  split; [exact gaps_df_well_formed|].
  apply (no_filters_returns_whole_dataset (mkWorld (Ok gaps_df) []) gaps_df);
    [reflexivity | discriminate | discriminate].
Defined.

(** C6. In every returned record every column of the dataset is present,
    and every cell that was missing in the dataset, in whatever column, is
    the empty string, not [null]; the only cells written as [null] are
    infinite floats. *)
Theorem nulls_become_empty_strings
    (w : world) (df : DataFrame) (y : option Z) (c m : option string)
    (recs : list json) :
  remote w = Ok df ->
  well_formed df ->
  fst (fetch_data y c m w) = Ok (PyJsonText (JArr recs)) ->
  Forall2 (fun r rec =>
             exists vals,
               rec = JObj (combine (columns df) vals) /\
               map fst (combine (columns df) vals) = columns df /\
               List.length vals = List.length (columns df) /\
               forall j, (j < List.length (columns df))%nat ->
                 (cell_at j r = CNull -> nth j vals JNull = JStr "") /\
                 (nth j vals JNull = JNull ->
                    exists x, cell_at j r = CFloat x /\ is_finite x = false))
          (matching_rows df y c m) recs.
Proof.
  intros R WF H.
  destruct (fetch_data_json_text w df y c m _ R (wf_header df WF) H) as [E _].
  injection E as ->.
  apply Forall2_map_In. intros r Hr.
  assert (W : List.length (cells r) = List.length (columns df)).
  { apply (well_formed_width df r WF).
    apply (subseq_In _ _ _ (matching_rows_subseq df y c m) Hr). }
  exists (filled_values r). split; [reflexivity|]. split; [|split].
  - apply map_fst_combine. rewrite filled_values_length. symmetry. exact W.
  - rewrite filled_values_length. exact W.
  - intros j Hj. rewrite filled_values_nth by (rewrite W; exact Hj). split.
    + intros ->. reflexivity.
    + destruct (cell_at j r) as [|z|x|s|b]; simpl; try discriminate.
      destruct (is_finite x) eqn:Fx; [discriminate|].
      intros _. exists x. split; [reflexivity|exact Fx].
Qed.

Lemma nulls_become_empty_strings_witness :
  Forall2 (fun r rec =>
             exists vals,
               rec = JObj (combine (columns gaps_df) vals) /\
               map fst (combine (columns gaps_df) vals) = columns gaps_df /\
               List.length vals = List.length (columns gaps_df) /\
               forall j, (j < List.length (columns gaps_df))%nat ->
                 (cell_at j r = CNull -> nth j vals JNull = JStr "") /\
                 (nth j vals JNull = JNull ->
                    exists x, cell_at j r = CFloat x /\ is_finite x = false))
          (matching_rows gaps_df (Some 2020) None None)
          [JObj [("year", JInt 2020); ("country", JStr "USA"); ("price", JStr "")];
           JObj [("year", JInt 2020); ("country", JStr "");
                 ("price", JFloat10 (dbl 7 (-2)))]].
Proof.
  apply (nulls_become_empty_strings (mkWorld (Ok gaps_df) []) gaps_df
           (Some 2020) None None _ eq_refl gaps_df_well_formed).
  reflexivity.
Defined.

(** C7. The response depends on the dataset and the query parameters
    only: two identical requests against the same dataset get the same
    response, whatever was printed before, and a request leaves the
    dataset as it found it. *)
Theorem handler_deterministic
    (w1 w2 : world) (y : option Z) (c m : option string) :
  remote w1 = remote w2 ->
  fst (get_fetch_data y c m w1) = fst (get_fetch_data y c m w2) /\
  remote (snd (get_fetch_data y c m w1)) = remote w1 /\
  fst (get_fetch_data y c m (snd (get_fetch_data y c m w1))) =
    fst (get_fetch_data y c m w1).
Proof.
  intros R.
  assert (K : remote (snd (get_fetch_data y c m w1)) = remote w1).
  { rewrite get_fetch_data_snd. apply keeps_remote_fetch_data. }
  rewrite !get_fetch_data_fst, K, R. repeat split.
Qed.

Lemma handler_deterministic_witness :
  fst (get_fetch_data (Some 2021) None (Some "Retail") sample_world) =
  fst (get_fetch_data (Some 2021) None (Some "Retail")
         (mkWorld (Ok sample_df) ["2"; "Filtering by year"; "1"])).
Proof.
  apply (handler_deterministic sample_world
           (mkWorld (Ok sample_df) ["2"; "Filtering by year"; "1"])
           (Some 2021) None (Some "Retail")).
  reflexivity.
Defined.

(** ** Rows and their positions *)

Lemma StronglySorted_map_S (l : list nat) :
  StronglySorted Nat.lt l -> StronglySorted Nat.lt (map S l).
Proof.
  induction 1 as [|a l HS IH HF]; simpl; constructor.
  - exact IH.
  - rewrite Forall_map. rewrite Forall_forall in *. intros b Hb.
    apply -> Nat.succ_lt_mono. apply HF, Hb.
Qed.

(** The rows a filter keeps sit at increasing positions of the list. *)
Lemma filter_positions (p : row -> bool) (l : list row) :
  exists idxs,
    StronglySorted Nat.lt idxs /\
    Forall2 (fun i x => nth_error l i = Some x /\ p x = true) idxs (filter p l).
Proof.
  induction l as [|a l [idxs [HS HF]]]; simpl.
  - exists []. split; constructor.
  - assert (HF' : Forall2 (fun i x => nth_error (a :: l) i = Some x /\ p x = true)
                          (map S idxs) (filter p l)).
    { clear HS. induction HF; simpl; constructor; assumption. }
    destruct (p a) eqn:Pa.
    + exists (0%nat :: map S idxs). split.
      * constructor; [apply StronglySorted_map_S, HS|].
        rewrite Forall_map. apply Forall_forall. intros b _. apply Nat.lt_0_succ.
      * constructor; [split; [reflexivity|exact Pa]|exact HF'].
    + exists (map S idxs). split; [apply StronglySorted_map_S, HS|exact HF'].
Qed.

Lemma Forall2_map_right {A B C} (Q : A -> B -> Prop) (P : A -> C -> Prop)
    (f : B -> C) (l1 : list A) (l2 : list B) :
  Forall2 Q l1 l2 -> (forall a b, Q a b -> P a (f b)) ->
  Forall2 P l1 (map f l2).
Proof.
  intros H HQ. induction H; simpl; constructor; auto.
Qed.

(** C8, as the specification states it, fails on a float64 year column:
    for the year [2^54 + 2], which is converted to the float64 [2^54], a
    record is returned although no row of the dataset has a year cell whose
    value equals the parameter. *)
Lemma filtered_result_subset_counterexample :
  well_formed float_year_df' /\
  fst (fetch_data (Some (2 ^ 54 + 2)) None None (mkWorld (Ok float_year_df') [])) =
    Ok (PyJsonText
          (JArr [JObj [("year", JFloat10 (dbl (2 ^ 54) 0)); ("country", JStr "France")]])) /\
  ~ exists r, In r (rows float_year_df') /\
              criterion (columns float_year_df') "year"
                (fun c => numerically_equal c (2 ^ 54 + 2)) r.
Proof.
  split; [exact float_year_df'_well_formed|]. split; [reflexivity|].
  intros [r [Hin [i [Ei H]]]]. injection Ei as <-.
  apply cell_eqb_int in H.
  destruct Hin as [<-|[<-|[]]]; vm_compute in H; discriminate.
Qed.

(** C8, with the year compared in the type of its column. The Filtered
    Result is a subset of the rows of the
    Dataset: the returned records are, one for one and in order, the
    records of the rows at increasing positions of the dataset, so each
    record corresponds to exactly one row, and each of these rows equals
    the parameter on every provided filter column, the year compared in the
    type of its column. *)
Theorem filtered_result_subset
    (w : world) (df : DataFrame) (y : option Z) (c m : option string)
    (recs : list json) :
  remote w = Ok df ->
  well_formed df ->
  fst (fetch_data y c m w) = Ok (PyJsonText (JArr recs)) ->
  exists idxs,
    StronglySorted Nat.lt idxs /\
    Forall2 (fun i rec =>
               exists r,
                 nth_error (rows df) i = Some r /\
                 rec = filled_record (columns df) r /\
                 satisfies df y c m r)
            idxs recs.
Proof.
  intros R WF H.
  destruct (fetch_data_json_text w df y c m _ R (wf_header df WF) H) as [E _].
  injection E as ->.
  destruct (filter_positions (satisfiesb df y c m) (rows df)) as [idxs [HS HF]].
  exists idxs. split; [exact HS|].
  apply (Forall2_map_right _ _ _ _ _ HF).
  intros i r [Hn Hp]. exists r. split; [exact Hn|]. split; [reflexivity|].
  pose proof (wf_cells df WF) as W. rewrite Forall_forall in W.
  apply (satisfiesb_spec df y c m r (W r (nth_error_In _ _ Hn))). exact Hp.
Qed.

Lemma filtered_result_subset_witness :
  exists idxs,
    StronglySorted Nat.lt idxs /\
    Forall2 (fun i rec =>
               exists r,
                 nth_error (rows gaps_df) i = Some r /\
                 rec = filled_record (columns gaps_df) r /\
                 satisfies gaps_df (Some 2020) None None r)
            idxs
            [JObj [("year", JInt 2020); ("country", JStr "USA"); ("price", JStr "")];
             JObj [("year", JInt 2020); ("country", JStr "");
                   ("price", JFloat10 (dbl 7 (-2)))]].
Proof.
  apply (filtered_result_subset (mkWorld (Ok gaps_df) []) gaps_df
           (Some 2020) None None _ eq_refl gaps_df_well_formed).
  reflexivity.
Defined.

(** C9. [fetch_data] always returns, and what it returns is the text of
    the result or the error dictionary, never [None]; so in the endpoint
    the [None] check fails and the body of the [try] never raises, the
    exception branch with its status 400 is never taken, and every
    response, the error responses too, leaves by [return filtered_data]. *)
Theorem fetch_data_total (w : world) (y : option Z) (c m : option string) :
  exists v w',
    fetch_data y c m w = (Ok v, w') /\
    v <> PyNone /\
    ((exists doc, v = PyJsonText doc) \/ (exists e, v = error_dict e)) /\
    is_none v = false /\
    fetch_data_api_body y c m w = (Ok v, w') /\
    fetch_data_api y c m w = (Ok v, w') /\
    (forall e, fetch_data_api y c m w <> (Ok (PyTuple [error_dict e; PyInt 400]), w')) /\
    get_fetch_data y c m w = (Response 200 (jsonable v), w').
Proof.
  pose proof (fetch_data_fst y c m w) as F.
  rewrite fetch_data_body_fst in F.
  pose proof (body_result_not_none (remote w) y c m) as N.
  pose proof (fetch_data_api_body_eq y c m w) as B.
  pose proof (fetch_data_api_eq y c m w) as A.
  unfold get_fetch_data. rewrite A, B.
  destruct (fetch_data y c m w) as [o w']. simpl in F. subst o.
  assert (S : (exists doc, caught (body_result (remote w) y c m) = PyJsonText doc) \/
              (exists e, caught (body_result (remote w) y c m) = error_dict e)).
  { unfold body_result.
    destruct (remote w) as [df|e]; [|right; eexists; reflexivity].
    destruct (chain_error df y c m); [right; eexists; reflexivity|].
    simpl.
    match goal with |- context [if ?b then _ else _] => destruct b end;
      [right|left]; eexists; reflexivity. }
  exists (caught (body_result (remote w) y c m)), w'.
  split; [reflexivity|]. split; [|split; [|repeat split]].
  - intros E. rewrite E in N. discriminate.
  - exact S.
  - exact N.
  - intros e H. injection H as E.
    destruct S as [[doc S]|[e' S]]; rewrite S in E; discriminate.
Qed.

(** C10. Nulls are replaced after the filters ran: a country or market
    parameter equal to the empty string does not select a row whose cell in
    that column is missing, although that cell is the empty string in a
    returned record. *)
Theorem empty_string_filter_skips_nulls
    (w : world) (df : DataFrame) (y : option Z) (c m : option string) (r : row) :
  remote w = Ok df ->
  columns df <> [] ->
  In r (rows df) ->
  (c = Some "" /\ criterion (columns df) "country" (fun x => x = CNull) r) \/
  (m = Some "" /\ criterion (columns df) "mkt_name" (fun x => x = CNull) r) ->
  ~ In r (matching_rows df y c m) /\
  (forall df', fst (apply_filters df y c m w) = Ok df' -> ~ In r (rows df')) /\
  returned_records (fst (fetch_data y c m w)) =
    map (filled_record (columns df)) (matching_rows df y c m) /\
  In (filled_record (columns df) r)
     (returned_records (fst (fetch_data None None None w))) /\
  (forall j, (j < List.length (cells r))%nat -> cell_at j r = CNull ->
             nth j (filled_values r) JNull = JStr "").
Proof.
  intros R Hc Hin Hnull.
  assert (Hnot : ~ In r (matching_rows df y c m)).
  { unfold matching_rows. rewrite filter_In. intros [_ S].
    unfold satisfiesb in S. rewrite !andb_true_iff in S.
    destruct S as [[Sy Sc] Sm].
    destruct Hnull as [[-> (i & Ei & Hi)] | [-> (i & Ei & Hi)]].
    - cbn [option_map] in Sc. rewrite holdsb_passes, Ei, Hi, passes_null in Sc.
      discriminate.
    - cbn [option_map] in Sm. rewrite holdsb_passes, Ei, Hi, passes_null in Sm.
      discriminate. }
  split; [exact Hnot|]. split; [|split; [|split]].
  - intros df' F. rewrite apply_filters_fst, filter_chain_eq in F.
    destruct (chain_error df y c m); [discriminate|].
    injection F as <-. exact Hnot.
  - apply fetch_data_records; assumption.
  - rewrite (fetch_data_records w df None None None R Hc).
    rewrite matching_rows_no_criteria. apply in_map. exact Hin.
  - intros j Lt Hj. rewrite filled_values_nth by exact Lt.
    rewrite Hj. reflexivity.
Qed.

Lemma empty_string_filter_skips_nulls_witness :
  ~ In (mkRow 2 [CInt 2020; CNull; CFloat (dbl 7 (-2))])
       (matching_rows gaps_df (Some 2020) (Some "") None) /\
  In (JObj [("year", JInt 2020); ("country", JStr ""); ("price", JFloat10 (dbl 7 (-2)))])
     (returned_records (fst (fetch_data None None None (mkWorld (Ok gaps_df) [])))).
Proof.
  destruct (empty_string_filter_skips_nulls (mkWorld (Ok gaps_df) []) gaps_df
              (Some 2020) (Some "") None
              (mkRow 2 [CInt 2020; CNull; CFloat (dbl 7 (-2))]))
    as (H1 & _ & _ & H2 & _).
  - reflexivity.
  - discriminate.
  - simpl. tauto.
  - left. split; [reflexivity|]. exists 1%nat. split; reflexivity.
  - split; [exact H1|exact H2].
Defined.

(** ** Further properties of the handler *)

(** *** What a request prints *)

Lemma appends_ret {A} (a : A) : appends_stdout (ret a).
Proof. intros w. exists []. simpl. rewrite app_nil_r. reflexivity. Qed.

Lemma appends_raise {A} (e : exn) : appends_stdout (@raise A e).
Proof. intros w. exists []. simpl. rewrite app_nil_r. reflexivity. Qed.

Lemma appends_print (s : string) : appends_stdout (print s).
Proof. intros w. exists [s]. reflexivity. Qed.

Lemma appends_read_csv : appends_stdout read_csv.
Proof. intros w. exists []. simpl. rewrite app_nil_r. reflexivity. Qed.

Lemma appends_filter_eq df name v : appends_stdout (filter_eq df name v).
Proof.
  intros w. rewrite filter_eq_run. exists []. simpl.
  rewrite app_nil_r. reflexivity.
Qed.

Lemma appends_bind {A B} (m : M A) (k : A -> M B) :
  appends_stdout m -> (forall a, appends_stdout (k a)) -> appends_stdout (bind m k).
Proof.
  intros Hm Hk w. unfold bind. destruct (Hm w) as [l1 E1].
  destruct (m w) as [[a|e] w']; simpl in *.
  - destruct (Hk a w') as [l2 E2]. exists (l1 ++ l2)%list.
    rewrite E2, E1, app_assoc. reflexivity.
  - exists l1. exact E1.
Qed.

Lemma appends_try {A} (m : M A) (h : exn -> M A) :
  appends_stdout m -> (forall e, appends_stdout (h e)) ->
  appends_stdout (try_except m h).
Proof.
  intros Hm Hh w. unfold try_except. destruct (Hm w) as [l1 E1].
  destruct (m w) as [[a|e] w']; simpl in *.
  - exists l1. exact E1.
  - destruct (Hh e w') as [l2 E2]. exists (l1 ++ l2)%list.
    rewrite E2, E1, app_assoc. reflexivity.
Qed.

Create HintDb stdout discriminated.
#[local] Hint Resolve appends_ret appends_raise appends_print
  appends_read_csv appends_filter_eq : stdout.

Ltac grow :=
  repeat first
    [ progress auto with stdout
    | apply appends_bind; [|intro]
    | apply appends_try; [|intro]
    | match goal with |- appends_stdout (match ?x with _ => _ end) => destruct x end
    | match goal with |- appends_stdout (if ?x then _ else _) => destruct x end ].

Lemma appends_fetch_data_api y c m : appends_stdout (fetch_data_api y c m).
Proof.
  unfold fetch_data_api, fetch_data_api_body, fetch_data, fetch_data_body,
    apply_filters, print_nat.
  grow.
Qed.

(** X1. A request changes nothing but the standard output, and there it
    only appends: what was printed before the request is still there, in
    front of the lines of the request. *)
Theorem request_only_appends_to_stdout
    (w : world) (y : option Z) (c m : option string) :
  exists lines : list string,
    snd (get_fetch_data y c m w) = mkWorld (remote w) (stdout w ++ lines)%list.
Proof.
  destruct (appends_fetch_data_api y c m w) as [lines E].
  pose proof (keeps_remote_fetch_data_api y c m w) as K.
  exists lines. unfold get_fetch_data.
  destruct (fetch_data_api y c m w) as [o [r s]]; simpl in *.
  rewrite K, E. reflexivity.
Qed.

Lemma filter_step_ok name v df :
  step_error df name v = None ->
  filter_step name v df =
  Ok (mkDF (columns df) (dtypes df) (filter (holdsb df name v) (rows df))).
Proof. intros E. rewrite filter_step_eq, E. reflexivity. Qed.

Lemma apply_filters_stages df y c m :
  apply_filters df y c m =
  (df1 <- stage "Filtering by year" "year" (option_map SInt y) df ;;
   df2 <- stage "Filtering by country" "country" (option_map SStr c) df1 ;;
   stage "Filtering by market" "mkt_name" (option_map SStr m) df2).
Proof. destruct y, c, m; reflexivity. Qed.

Lemma stage_run (line name : string) (v : option scalar) df w :
  step_error df name v = None ->
  stage line name v df w =
  (Ok (mkDF (columns df) (dtypes df) (filter (holdsb df name v) (rows df))),
   mkWorld (remote w)
           (stdout w ++ match v with Some _ => [line] | None => [] end)%list).
Proof.
  intros E. unfold stage. destruct v as [v|].
  - unfold bind, print. rewrite filter_eq_run, (filter_step_ok _ _ _ E).
    reflexivity.
  - unfold ret, holdsb. rewrite filter_const_true, app_nil_r.
    destruct df, w; reflexivity.
Qed.

Lemma apply_filters_snd df y c m w :
  chain_error df y c m = None ->
  snd (apply_filters df y c m w) =
  mkWorld (remote w) (stdout w ++ filter_lines y c m)%list.
Proof.
  unfold chain_error. intros H.
  destruct (step_error df "year" (option_map SInt y)) eqn:E1; [discriminate|].
  destruct (step_error df "country" (option_map SStr c)) eqn:E2; [discriminate|].
  rename H into E3.
  rewrite apply_filters_stages. unfold bind.
  rewrite (stage_run _ _ _ _ _ E1).
  rewrite stage_run
    by (rewrite (step_error_frame df) by reflexivity; exact E2).
  rewrite stage_run
    by (rewrite (step_error_frame df) by reflexivity; exact E3).
  cbn [snd remote stdout]. unfold filter_lines.
  rewrite <- !app_assoc. destruct y, c, m; reflexivity.
Qed.

(** X2. When the dataset loads and no filter raises, a request prints the
    row count of the dataset, one line per provided parameter in the order
    year, country, market, and the row count after filtering; the last
    count is printed also when no row is left and the request fails, and
    it is the number of returned records. *)
Theorem request_log
    (w : world) (df : DataFrame) (y : option Z) (c m : option string) :
  remote w = Ok df ->
  columns df <> [] ->
  chain_error df y c m = None ->
  stdout (snd (get_fetch_data y c m w)) =
    (stdout w ++ [dec (nrows df)] ++ filter_lines y c m ++
       [dec (List.length (matching_rows df y c m))])%list /\
  List.length (returned_records (fst (fetch_data y c m w))) =
    List.length (matching_rows df y c m).
Proof.
  intros R Hc Mi. split.
  - rewrite get_fetch_data_snd.
    unfold fetch_data, try_except, fetch_data_body, bind, read_csv, print_nat, print.
    rewrite R. cbn [remote stdout].
    match goal with |- context [apply_filters df y c m ?w0] =>
      pose proof (apply_filters_fst df y c m w0) as F;
      pose proof (apply_filters_snd df y c m w0 Mi) as S;
      destruct (apply_filters df y c m w0) as [[df'|e] w']
    end; rewrite filter_chain_eq, Mi in F; simpl in F, S; [|discriminate].
    injection F as ->. subst w'.
    unfold nrows, dec, fillna. cbn [remote stdout rows columns].
    rewrite length_map.
    match goal with |- context [if ?b then _ else _] => destruct b end;
      cbn [snd stdout ret raise]; rewrite <- !app_assoc; reflexivity.
  - rewrite (fetch_data_records w df y c m R Hc), length_map. reflexivity.
Qed.

Lemma request_log_witness :
  stdout (snd (get_fetch_data (Some 2099) (Some "USA") None sample_world)) =
  ["2"; "Filtering by year"; "Filtering by country"; "0"].
Proof.
  apply (request_log sample_world sample_df (Some 2099) (Some "USA") None);
    [reflexivity | discriminate | reflexivity].
Defined.

(** X3. When the load fails nothing is printed and no filter runs: the
    request answers with the description of the failure and leaves the
    world as it was. *)
Theorem load_failure_leaves_world
    (w : world) (y : option Z) (c m : option string) (e : exn) :
  remote w = Raise e ->
  get_fetch_data y c m w = (Response 200 (error_body (str_exn e)), w).
Proof.
  intros R.
  unfold get_fetch_data, fetch_data_api, fetch_data_api_body, fetch_data,
    fetch_data_body, try_except, bind, read_csv.
  rewrite R. reflexivity.
Qed.

Lemma load_failure_leaves_world_witness :
  get_fetch_data (Some 2020) None None
    (mkWorld (Raise (OtherError "<urlopen error timed out>")) ["earlier"]) =
  (Response 200 (JObj [("error", JStr "<urlopen error timed out>")]),
   mkWorld (Raise (OtherError "<urlopen error timed out>")) ["earlier"]).
Proof.
  apply (load_failure_leaves_world
           (mkWorld (Raise (OtherError "<urlopen error timed out>")) ["earlier"])
           (Some 2020) None None (OtherError "<urlopen error timed out>")).
  reflexivity.
Defined.

(** *** Filters that raise *)

Lemma col_index_None name cols : col_index name cols = None <-> ~ In name cols.
Proof.
  induction cols as [|c cols IH]; simpl.
  - split; [intros _ []|reflexivity].
  - destruct (String.eqb_spec c name) as [->|Ne].
    + split; [discriminate|]. intros H. exfalso. apply H. left. reflexivity.
    + destruct (col_index name cols) as [i|]; simpl.
      * split; [discriminate|]. intros H. exfalso.
        assert (H' : ~ In name cols) by (intros Hin; apply H; right; exact Hin).
        apply IH in H'. discriminate.
      * split; [|reflexivity]. intros _ [E|Hin]; [exact (Ne E)|].
        destruct IH as [IH _]. exact (IH eq_refl Hin).
Qed.

Lemma col_index_present name cols :
  In name cols -> exists i, col_index name cols = Some i.
Proof.
  intros Hin. destruct (col_index name cols) as [i|] eqn:E.
  - exists i. reflexivity.
  - apply col_index_None in E. contradiction.
Qed.

Lemma chain_error_response w df y c m e :
  remote w = Ok df -> chain_error df y c m = Some e ->
  fst (get_fetch_data y c m w) = Response 200 (error_body (str_exn e)).
Proof.
  intros R Mi. rewrite get_fetch_data_fst, R. unfold body_result.
  rewrite Mi. reflexivity.
Qed.

Lemma year_runs_no_error df y :
  year_filter_runs df y -> step_error df "year" (option_map SInt y) = None.
Proof.
  intros H. destruct y as [y0|]; [|reflexivity]. cbn [option_map step_error].
  destruct (H y0 eq_refl) as (i & -> & Hd).
  unfold element_test. destruct (dtype_at df i); try reflexivity.
  destruct (float_of_int y0); [reflexivity|]. exfalso. apply Hd; reflexivity.
Qed.

Lemma text_runs_no_error df name v :
  v = None \/ In name (columns df) ->
  step_error df name (option_map SStr v) = None.
Proof.
  intros [->|Hin]; [reflexivity|]. destruct v as [s|]; [|reflexivity].
  cbn [option_map step_error]. destruct (col_index_present _ _ Hin) as [i ->].
  unfold element_test. destruct (dtype_at df i); reflexivity.
Qed.

(** X4. A provided parameter whose column the dataset does not have makes
    the request fail with the quoted column name as message, whatever the
    rows are, provided the filters before it ran; when several such
    columns are absent the message names the first in the order year,
    country, market. *)
Theorem absent_column_is_reported
    (w : world) (df : DataFrame) (y : option Z) (c m : option string) :
  remote w = Ok df ->
  (forall y0, y = Some y0 -> ~ In "year" (columns df) ->
     fst (get_fetch_data y c m w) = Response 200 (error_body "'year'")) /\
  (forall c0, c = Some c0 -> year_filter_runs df y ->
     ~ In "country" (columns df) ->
     fst (get_fetch_data y c m w) = Response 200 (error_body "'country'")) /\
  (forall m0, m = Some m0 -> year_filter_runs df y ->
     c = None \/ In "country" (columns df) ->
     ~ In "mkt_name" (columns df) ->
     fst (get_fetch_data y c m w) = Response 200 (error_body "'mkt_name'")).
Proof.
  intros R. split; [|split].
  - intros y0 -> Hy. apply col_index_None in Hy.
    apply (chain_error_response w df _ c m (KeyError "year") R).
    unfold chain_error, step_error. cbn [option_map]. rewrite Hy. reflexivity.
  - intros c0 -> Hy Hc. apply col_index_None in Hc.
    apply (chain_error_response w df y _ m (KeyError "country") R).
    unfold chain_error. rewrite (year_runs_no_error df y Hy).
    unfold step_error. cbn [option_map]. rewrite Hc. reflexivity.
  - intros m0 -> Hy Hc Hm. apply col_index_None in Hm.
    apply (chain_error_response w df y c _ (KeyError "mkt_name") R).
    unfold chain_error.
    rewrite (year_runs_no_error df y Hy), (text_runs_no_error df "country" c Hc).
    unfold step_error. cbn [option_map]. rewrite Hm. reflexivity.
Qed.

Lemma absent_column_is_reported_witness :
  fst (get_fetch_data (Some 2099) None (Some "Retail")
         (mkWorld (Ok (mkDF ["year"; "country"] [DInt64; DObject]
                        [mkRow 0 [CInt 2020; CStr "USA"]])) [])) =
  Response 200 (JObj [("error", JStr "'mkt_name'")]).
Proof.
  destruct (absent_column_is_reported
              (mkWorld (Ok (mkDF ["year"; "country"] [DInt64; DObject]
                             [mkRow 0 [CInt 2020; CStr "USA"]])) [])
              (mkDF ["year"; "country"] [DInt64; DObject]
                    [mkRow 0 [CInt 2020; CStr "USA"]])
              (Some 2099) None (Some "Retail") eq_refl) as (_ & _ & H).
  apply (H "Retail" eq_refl).
  - intros y0 [= <-]. exists 0%nat. split; [reflexivity|]. discriminate.
  - left. reflexivity.
  - simpl. intros [E|[E|[]]]; discriminate.
Defined.

(** X9. On a float64 year column a year too large for a float64 makes the
    comparison raise OverflowError: the request prints the row count and
    the line of the year filter, nothing more, and answers with the
    message of the error, whatever the other parameters and columns are. *)
Theorem year_too_large_for_float_column
    (w : world) (df : DataFrame) (i : nat) (y0 : Z) (c m : option string) :
  remote w = Ok df ->
  col_index "year" (columns df) = Some i ->
  dtype_at df i = DFloat64 ->
  float_of_int y0 = None ->
  get_fetch_data (Some y0) c m w =
  (Response 200 (error_body "int too large to convert to float"),
   mkWorld (remote w) (stdout w ++ [dec (nrows df); "Filtering by year"])%list).
Proof.
  intros R Ei Ed Ef.
  unfold get_fetch_data. rewrite fetch_data_api_eq.
  unfold fetch_data, try_except, fetch_data_body, bind, read_csv, print_nat, print.
  rewrite R. cbn [remote stdout].
  unfold apply_filters. cbv [bind print]. cbn [remote stdout].
  rewrite filter_eq_run. unfold filter_step.
  rewrite Ei, Ed. unfold element_test. rewrite Ef.
  cbn. rewrite <- app_assoc. reflexivity.
Qed.

Lemma year_too_large_for_float_column_witness :
  get_fetch_data (Some (10 ^ 400)) (Some "USA") (Some "Retail")
    (mkWorld (Ok float_year_df) []) =
  (Response 200 (JObj [("error", JStr "int too large to convert to float")]),
   mkWorld (Ok float_year_df) ["2"; "Filtering by year"]).
Proof.
  apply (year_too_large_for_float_column (mkWorld (Ok float_year_df) [])
           float_year_df 0%nat (10 ^ 400) (Some "USA") (Some "Retail"));
    reflexivity.
Defined.

(** *** Success and failure *)

(** X5. On a dataset as [read_csv] returns it a request succeeds exactly
    when some row of the dataset satisfies every provided criterion, the
    year compared in the type of its column. *)
Theorem success_iff_some_row_matches
    (w : world) (df : DataFrame) (y : option Z) (c m : option string) :
  remote w = Ok df ->
  well_formed df ->
  (exists doc, fst (fetch_data y c m w) = Ok (PyJsonText doc)) <->
  (exists r, In r (rows df) /\ satisfies df y c m r).
Proof.
  intros R WF. pose proof (wf_header df WF) as Hc. split.
  - intros [doc H].
    destruct (fetch_data_json_text w df y c m doc R Hc H) as [_ Hne].
    destruct (matching_rows df y c m) as [|r rs] eqn:E; [contradiction|].
    exists r. apply (matching_rows_In df y c m r WF). rewrite E. left. reflexivity.
  - intros [r Hr]. apply (matching_rows_In df y c m r WF) in Hr.
    rewrite fetch_data_fst, fetch_data_body_fst, R, (body_result_records _ _ _ _ Hc).
    destruct (matching_rows df y c m) as [|r0 rs]; [contradiction|].
    eexists. reflexivity.
Qed.

Lemma success_iff_some_row_matches_witness :
  (exists doc, fst (fetch_data (Some (2 ^ 53 + 1)) None None
                      (mkWorld (Ok float_year_df) [])) = Ok (PyJsonText doc)) <->
  (exists r, In r (rows float_year_df) /\
             satisfies float_year_df (Some (2 ^ 53 + 1)) None None r).
Proof.
  apply (success_iff_some_row_matches (mkWorld (Ok float_year_df) []) float_year_df
           (Some (2 ^ 53 + 1)) None None);
    [reflexivity | exact float_year_df_well_formed].
Defined.

(** X6. The text [fetch_data] returns is never that of an empty array:
    whatever the dataset, a returned document is an array with at least
    one record. *)
Theorem returned_array_is_never_empty
    (w : world) (y : option Z) (c m : option string) (doc : json) :
  fst (fetch_data y c m w) = Ok (PyJsonText doc) ->
  exists rec recs, doc = JArr (rec :: recs).
Proof.
  rewrite fetch_data_fst, fetch_data_body_fst. unfold body_result.
  destruct (remote w) as [df|e]; [|discriminate].
  destruct (chain_error df y c m); [discriminate|].
  unfold empty, fillna, to_json_records. cbn [columns rows].
  destruct (matching_rows df y c m) as [|r rs].
  - rewrite orb_true_r. discriminate.
  - destruct (Nat.eqb (List.length (columns df)) 0); [discriminate|].
    cbn [map List.length Nat.eqb orb caught]. intros [= <-].
    eexists. eexists. reflexivity.
Qed.

Lemma returned_array_is_never_empty_witness :
  exists rec recs,
    JArr [JObj [("year", JInt 2021); ("country", JStr "USA"); ("mkt_name", JStr "Retail")]]
    = JArr (rec :: recs).
Proof.
  apply (returned_array_is_never_empty sample_world (Some 2021) None None).
  reflexivity.
Defined.

(** *** Narrowing a request *)

Lemma filter_subseq_impl (p q : row -> bool) (rs : list row) :
  (forall r, p r = true -> q r = true) -> subseq (filter p rs) (filter q rs).
Proof.
  intros Hpq. induction rs as [|r rs IH]; simpl; [constructor|].
  destruct (p r) eqn:P.
  - rewrite (Hpq r P). apply subseq_keep. exact IH.
  - destruct (q r); [apply subseq_skip|]; exact IH.
Qed.

Lemma holdsb_weaken df name (v1 v2 : option scalar) r :
  v2 = None \/ v1 = v2 ->
  holdsb df name v1 r = true -> holdsb df name v2 r = true.
Proof. intros [->| ->]; [reflexivity|exact (fun H => H)]. Qed.

Lemma option_map_weaken {A B} (f : A -> B) (a1 a2 : option A) :
  a2 = None \/ a1 = a2 -> option_map f a2 = None \/ option_map f a1 = option_map f a2.
Proof. intros [->| ->]; [left|right]; reflexivity. Qed.

(** X7. Adding parameters to a request, or keeping them, never adds
    records: on the same dataset the records of the request with more
    criteria are among the records of the request with fewer, in the same
    order. *)
Theorem more_criteria_fewer_records
    (w : world) (df : DataFrame)
    (y1 y2 : option Z) (c1 c2 m1 m2 : option string) :
  remote w = Ok df ->
  columns df <> [] ->
  y2 = None \/ y1 = y2 ->
  c2 = None \/ c1 = c2 ->
  m2 = None \/ m1 = m2 ->
  subseq (returned_records (fst (fetch_data y1 c1 m1 w)))
         (returned_records (fst (fetch_data y2 c2 m2 w))).
Proof.
  intros R Hc Hy Hcn Hm.
  rewrite !(fetch_data_records w df _ _ _ R Hc).
  apply subseq_map. unfold matching_rows. apply filter_subseq_impl.
  intros r. unfold satisfiesb. rewrite !andb_true_iff.
  intros [[Y C] K]. repeat split.
  - exact (holdsb_weaken _ _ _ _ r (option_map_weaken SInt _ _ Hy) Y).
  - exact (holdsb_weaken _ _ _ _ r (option_map_weaken SStr _ _ Hcn) C).
  - exact (holdsb_weaken _ _ _ _ r (option_map_weaken SStr _ _ Hm) K).
Qed.

Lemma more_criteria_fewer_records_witness :
  subseq (returned_records (fst (fetch_data (Some 2020) (Some "USA") None
                                   (mkWorld (Ok gaps_df) []))))
         (returned_records (fst (fetch_data (Some 2020) None None
                                   (mkWorld (Ok gaps_df) [])))).
Proof.
  apply (more_criteria_fewer_records (mkWorld (Ok gaps_df) []) gaps_df
           (Some 2020) (Some 2020) (Some "USA") None None None);
    [reflexivity | discriminate | right; reflexivity
    | left; reflexivity | left; reflexivity].
Defined.

(** *** Comparing across types *)

Lemma passes_int_number d y c : passes d (SInt y) c = true -> is_number c = true.
Proof.
  unfold passes, element_test.
  destruct d; try (destruct c; simpl; discriminate || reflexivity).
  destruct (float_of_int y); [|discriminate].
  destruct c; simpl; discriminate || reflexivity.
Qed.

(** X8. The year is compared as a number: on a dataset whose year column
    holds only text or missing cells no year parameter selects a row, so
    every request with a year returns no record and answers with an error
    body. *)
Theorem year_never_matches_text
    (w : world) (df : DataFrame) (i : nat) (y0 : Z) (c m : option string) :
  remote w = Ok df ->
  col_index "year" (columns df) = Some i ->
  (forall r, In r (rows df) -> is_number (cell_at i r) = false) ->
  returned_records (fst (fetch_data (Some y0) c m w)) = [] /\
  exists e, fst (get_fetch_data (Some y0) c m w) = Response 200 (error_body (str_exn e)).
Proof.
  intros R Ei Htxt.
  assert (E : matching_rows df (Some y0) c m = []).
  { unfold matching_rows.
    induction (rows df) as [|r rs IH]; simpl; [reflexivity|].
    assert (F : satisfiesb df (Some y0) c m r = false).
    { unfold satisfiesb. cbn [option_map]. rewrite holdsb_passes, Ei.
      destruct (passes (dtype_at df i) (SInt y0) (cell_at i r)) eqn:Q; [|reflexivity].
      apply passes_int_number in Q.
      rewrite (Htxt r (or_introl eq_refl)) in Q. discriminate. }
    rewrite F. apply IH. intros r' Hr'. apply Htxt. right. exact Hr'. }
  assert (B : exists e, body_result (Ok df) (Some y0) c m = Raise e).
  { unfold body_result.
    destruct (chain_error df (Some y0) c m); [eexists; reflexivity|].
    rewrite E. unfold empty. cbn [fillna rows map List.length Nat.eqb].
    rewrite orb_true_r. eexists. reflexivity. }
  destruct B as [e B]. split.
  - rewrite fetch_data_fst, fetch_data_body_fst, R, B. reflexivity.
  - exists e. rewrite get_fetch_data_fst, R, B. reflexivity.
Qed.

Lemma year_never_matches_text_witness :
  returned_records (fst (fetch_data (Some 2020) None None
                           (mkWorld (Ok text_year_df) []))) = [] /\
  exists e, fst (get_fetch_data (Some 2020) None None (mkWorld (Ok text_year_df) [])) =
            Response 200 (error_body (str_exn e)).
Proof.
  apply (year_never_matches_text (mkWorld (Ok text_year_df) []) text_year_df 0%nat
           2020 None None eq_refl eq_refl).
  simpl. intros r [<-|[<-|[]]]; reflexivity.
Defined.
